(** * The Talk server life cycle: [connect], [process] and [start]

    A shallow embedding of [src/core/server/index.ts].  The class [Server]
    owns two boolean guards ([connected], [processing]) and a handful of
    references obtained from its collaborators (MongoDB, Redis, the tenant
    cache, the task queues, the HTTP listener).  Its three asynchronous
    methods are written below in a small resumption monad: a computation is
    a finite tree whose nodes are the calls made to collaborators, and whose
    [Await] nodes expose the state of [this] that any other invocation can
    observe while the method is suspended. *)

From Stdlib Require Import String ZArith List Bool Lia.
Import ListNotations.

Local Open Scope string_scope.
Local Open Scope list_scope.

(** ** Data *)

(** Objects owned by collaborators (a [Db], a Redis client, an Express
    application, ...) are opaque references. *)
Definition Handle := nat.

(** What a JavaScript [throw] carries. *)
Inductive Error : Type :=
| JSError (message : string)        (* new Error(message) *)
| TypeError (property : string)     (* reading [property] of undefined *)
| Rejected (code : nat).            (* raised by a collaborator *)

(** The configuration keys read by the server ([this.config.get(key)]). *)
Record Config : Type := mkConfig {
  default_locale : string;
  disable_mongodb_autoindexing : bool;
  concurrency : Z;
  metrics_username : option string;
  metrics_password : option string;
  cluster_metrics_port : Z;
  port : Z;
  disable_client_routes : bool
}.

(** The source passes either the imported module [config] or [this.config]
    to its collaborators; the argument is recorded as written. *)
Inductive ConfigRef : Type := ModuleConfig | ThisConfig.

(** [tasks.mailer] and [tasks.scraper] of a [TaskQueue] object. *)
Inductive Task : Type :=
| Mailer (tasks : Handle)
| Scraper (tasks : Handle).

(** JavaScript truthiness of an optional string: [null], [undefined] and the
    empty string are falsy. *)
Definition truthy (v : option string) : bool :=
  match v with
  | Some s => negb (String.eqb s "")
  | None => false
  end.

(** *** The cluster metrics application *)

(** What a request handler does with its response object and [next]. *)
Inductive ResAction : Type :=
| Next (err : Error)                 (* next(err) *)
| ResSet (field value : string)      (* res.set(field, value) *)
| ResSend (body : string).           (* res.send(body) *)

(** prom-client's [AggregatorRegistry]: its [contentType] property and its
    [clusterMetrics(callback)] method, which hands [(err, metrics)] to the
    callback it is given. *)
Record AggregatorRegistry : Type := mkRegistry {
  contentType : string;
  clusterMetrics : (option Error -> string -> list ResAction) -> list ResAction
}.

Inductive Middleware : Type :=
| accessLogger
| basicAuth (username password : option string)
| noCacheMiddleware
| metricsHandler (aggregatorRegistry : AggregatorRegistry)
| notFoundMiddleware
| errorLogger
| JSONErrorHandler.

(** One entry of an Express application's stack. *)
Inductive Layer : Type :=
| Use (path : option string) (m : Middleware)         (* app.use([path,] m) *)
| Get (path : string) (handlers : list Middleware).   (* app.get(path, ...) *)

Definition Express := list Layer.

(** [express()]: a fresh application with an empty stack. *)
Definition express : Express := [].

(** [app.use] and [app.get] push on the stack, in call order. *)
Definition app_use (path : option string) (m : Middleware) (app : Express) : Express :=
  app ++ [Use path m].

Definition app_get (path : string) (hs : list Middleware) (app : Express) : Express :=
  app ++ [Get path hs].

(** The application handed to [listenAndServe]: the metrics server built in
    [process], or the application returned by [createApp]. *)
Inductive AppRef : Type :=
| LocalApp (app : Express)
| RemoteApp (app : Handle).

(** *** The server object *)

Record Server : Type := mkServer {
  parentApp : Handle;
  schema : Handle;
  config : Config;
  httpServer : option Handle;
  tasks : option Handle;
  redis : option Handle;
  mongo : option Handle;
  tenantCache : option Handle;
  connected : bool;
  processing : bool;
  i18n : Handle
}.

Record ServerStartOptions : Type := mkStartOptions { parent : option Handle }.

(** The options object passed to [createApp] by [start]. *)
Record AppOptions : Type := mkAppOptions {
  opt_parent : Handle;
  opt_mongo : option Handle;
  opt_redis : option Handle;
  opt_signingConfig : Handle;
  opt_tenantCache : option Handle;
  opt_config : ConfigRef;
  opt_schema : Handle;
  opt_i18n : Handle;
  opt_mailerQueue : Task;
  opt_scraperQueue : Task;
  opt_metrics : bool;
  opt_disableClientRoutes : bool
}.

(** Field assignments [this.f = v]. *)
Definition set_connected (b : bool) (s : Server) : Server :=
  mkServer (parentApp s) (schema s) (config s) (httpServer s) (tasks s)
           (redis s) (mongo s) (tenantCache s) b (processing s) (i18n s).

Definition set_processing (b : bool) (s : Server) : Server :=
  mkServer (parentApp s) (schema s) (config s) (httpServer s) (tasks s)
           (redis s) (mongo s) (tenantCache s) (connected s) b (i18n s).

Definition set_mongo (v : option Handle) (s : Server) : Server :=
  mkServer (parentApp s) (schema s) (config s) (httpServer s) (tasks s)
           (redis s) v (tenantCache s) (connected s) (processing s) (i18n s).

Definition set_redis (v : option Handle) (s : Server) : Server :=
  mkServer (parentApp s) (schema s) (config s) (httpServer s) (tasks s)
           v (mongo s) (tenantCache s) (connected s) (processing s) (i18n s).

Definition set_tenantCache (v : option Handle) (s : Server) : Server :=
  mkServer (parentApp s) (schema s) (config s) (httpServer s) (tasks s)
           (redis s) (mongo s) v (connected s) (processing s) (i18n s).

Definition set_tasks (v : option Handle) (s : Server) : Server :=
  mkServer (parentApp s) (schema s) (config s) (httpServer s) v
           (redis s) (mongo s) (tenantCache s) (connected s) (processing s) (i18n s).

Definition set_httpServer (v : option Handle) (s : Server) : Server :=
  mkServer (parentApp s) (schema s) (config s) v (tasks s)
           (redis s) (mongo s) (tenantCache s) (connected s) (processing s) (i18n s).

(** The object left by the constructor: both guards are [false] and the
    references that [connect] and [start] assign are still undefined. *)
Definition new_Server (app sch i : Handle) (cfg : Config) : Server :=
  mkServer app sch cfg None None None None None false false i.

(** ** Calls to collaborators *)

Inductive Call : Type :=
| I18nLoad (i : Handle)
| CreateMongoDB (c : ConfigRef)
| CreateAugmentedRedisClient (c : ConfigRef)
| CreateRedisClient (c : ConfigRef)
| NewTenantCache (mongo : option Handle) (redis : Handle) (c : ConfigRef)
| PrimeAll (cache : Handle)
| CreateQueue (c : ConfigRef) (mongo cache : option Handle) (i : Handle)
| CollectDefaultMetrics (timeout : Z)
| EnsureIndexes (mongo : option Handle)
| TaskProcess (t : Task)
| CreateJWTSigningConfig (c : ConfigRef)
| CreateApp (o : AppOptions)
| ListenAndServe (app : AppRef) (port : Z).

(** A call either returns a reference or throws (for an awaited promise:
    resolves or rejects). *)
Inductive Reply : Type :=
| Returned (v : Handle)
| Threw (e : Error).

(** ** The resumption monad *)

Inductive Prog (A : Type) : Type :=
| Done (s : Server) (a : A)
| Fail (s : Server) (e : Error)
| Log (message : string) (p : Prog A)
| Sync (c : Call) (k : Reply -> Prog A)
| Await (s : Server) (c : Call) (k : Reply -> Server -> Prog A).

Arguments Done {A} s a.
Arguments Fail {A} s e.
Arguments Log {A} message p.
Arguments Sync {A} c k.
Arguments Await {A} s c k.

Definition M (A : Type) : Type := Server -> Prog A.

Fixpoint bindP {A B : Type} (p : Prog A) (f : A -> M B) : Prog B :=
  match p with
  | Done s a => f a s
  | Fail s e => Fail s e
  | Log m p' => Log m (bindP p' f)
  | Sync c k => Sync c (fun r => bindP (k r) f)
  | Await s c k => Await s c (fun r s' => bindP (k r s') f)
  end.

Definition ret {A : Type} (a : A) : M A := fun s => Done s a.
Definition bind {A B : Type} (m : M A) (f : A -> M B) : M B := fun s => bindP (m s) f.
Definition throw {A : Type} (e : Error) : M A := fun s => Fail s e.
Definition gets {A : Type} (f : Server -> A) : M A := fun s => Done s (f s).
Definition modify (f : Server -> Server) : M unit := fun s => Done (f s) tt.
Definition log (message : string) : M unit := fun s => Log message (Done s tt).

Definition reply {A : Type} (r : Reply) (k : Handle -> M A) : M A :=
  match r with
  | Returned v => k v
  | Threw e => throw e
  end.

(** [f(args)]: the caller is not suspended. *)
Definition call (c : Call) : M Handle :=
  fun s => Sync c (fun r => reply r ret s).

(** [await f(args)]: the caller is suspended, [this] is visible to others
    meanwhile, and the method resumes on whatever [this] has become. *)
Definition await (c : Call) : M Handle :=
  fun s => Await s c (fun r s' => reply r ret s').

(** [o.property] where [o] may be undefined. *)
Definition deref (o : option Handle) (property : string) : M Handle :=
  match o with
  | Some h => ret h
  | None => throw (TypeError property)
  end.

Declare Scope prog_scope.
Delimit Scope prog_scope with prog.
Notation "x <- m ;; k" := (bind m (fun x => k))
  (at level 61, m at next level, right associativity) : prog_scope.
Notation "m ;; k" := (bind m (fun _ => k))
  (at level 61, right associativity) : prog_scope.
Local Open Scope prog_scope.

(** ** The methods of [Server] *)

Definition connect : M unit :=
  c <- gets connected ;;
  (if c then throw (JSError "server has already connected") else ret tt) ;;
  modify (set_connected true) ;;
  i <- gets i18n ;;
  await (I18nLoad i) ;;
  db <- await (CreateMongoDB ModuleConfig) ;;
  modify (set_mongo (Some db)) ;;
  r <- await (CreateAugmentedRedisClient ModuleConfig) ;;
  modify (set_redis (Some r)) ;;
  m <- gets mongo ;;
  rc <- call (CreateRedisClient ThisConfig) ;;
  tc <- call (NewTenantCache m rc ModuleConfig) ;;
  modify (set_tenantCache (Some tc)) ;;
  cache <- gets tenantCache ;;
  cache <- deref cache "primeAll" ;;
  await (PrimeAll cache) ;;
  m <- gets mongo ;;
  cache <- gets tenantCache ;;
  i <- gets i18n ;;
  q <- await (CreateQueue ThisConfig m cache i) ;;
  modify (set_tasks (Some q)) ;;
  call (CollectDefaultMetrics 5000) ;;
  ret tt.

(** The handler of [GET /cluster_metrics]: the callback given to
    [clusterMetrics], then the request handler that installs it. *)
Definition metricsCallback (aggregatorRegistry : AggregatorRegistry)
    (err : option Error) (metrics : string) : list ResAction :=
  match err with
  | Some e => [Next e]
  | None => [ResSet "Content-Type" (contentType aggregatorRegistry); ResSend metrics]
  end.

Definition handleClusterMetrics (aggregatorRegistry : AggregatorRegistry) : list ResAction :=
  clusterMetrics aggregatorRegistry (metricsCallback aggregatorRegistry).

(** What [process] reads from the running process: [cluster.isMaster] and the
    registry made by [new AggregatorRegistry()]. *)
Record Runtime : Type := mkRuntime {
  isMaster : bool;
  new_AggregatorRegistry : AggregatorRegistry
}.

Definition process (rt : Runtime) : M unit :=
  p <- gets processing ;;
  (if p then throw (JSError "server has already processing") else ret tt) ;;
  modify (set_processing true) ;;
  cfg <- gets config ;;
  (if negb (disable_mongodb_autoindexing cfg)
   then log "mongodb autoindexing is enabled, starting indexing" ;;
        m <- gets mongo ;;
        await (EnsureIndexes m) ;;
        ret tt
   else log "mongodb autoindexing is disabled, skipping indexing") ;;
  t <- gets tasks ;;
  t <- deref t "mailer" ;;
  call (TaskProcess (Mailer t)) ;;
  t <- gets tasks ;;
  t <- deref t "scraper" ;;
  call (TaskProcess (Scraper t)) ;;
  cfg <- gets config ;;
  if isMaster rt && (concurrency cfg >? 1)%Z
  then let aggregatorRegistry := new_AggregatorRegistry rt in
       let metricsServer := express in
       let metricsServer := app_use None accessLogger metricsServer in
       cfg <- gets config ;;
       let username := metrics_username cfg in
       let password := metrics_password cfg in
       metricsServer <-
         (if truthy username && truthy password
          then let metricsServer :=
                 app_use (Some "/cluster_metrics") (basicAuth username password)
                         metricsServer in
               log "adding authentication to metrics endpoint" ;;
               ret metricsServer
          else log "not adding authentication to metrics endpoint, credentials not provided" ;;
               ret metricsServer) ;;
       let metricsServer :=
         app_get "/cluster_metrics"
                 [noCacheMiddleware; metricsHandler aggregatorRegistry] metricsServer in
       let metricsServer := app_use None notFoundMiddleware metricsServer in
       let metricsServer := app_use None errorLogger metricsServer in
       let metricsServer := app_use None JSONErrorHandler metricsServer in
       cfg <- gets config ;;
       let port := cluster_metrics_port cfg in
       await (ListenAndServe (LocalApp metricsServer) port) ;;
       log "now listening for cluster metrics"
  else ret tt.

Definition start (o : ServerStartOptions) : M unit :=
  c <- gets connected ;;
  (if negb c then throw (JSError "server has not connected yet") else ret tt) ;;
  cfg <- gets config ;;
  let port := port cfg in
  own <- gets parentApp ;;
  let parent := match parent o with Some p => p | None => own end in
  signingConfig <- call (CreateJWTSigningConfig ThisConfig) ;;
  cfg <- gets config ;;
  let metrics := (concurrency cfg =? 1)%Z in
  let disableClientRoutes := disable_client_routes cfg in
  m <- gets mongo ;;
  r <- gets redis ;;
  cache <- gets tenantCache ;;
  sch <- gets schema ;;
  i <- gets i18n ;;
  t <- gets tasks ;;
  mq <- deref t "mailer" ;;
  t <- gets tasks ;;
  sq <- deref t "scraper" ;;
  app <- await (CreateApp (mkAppOptions parent m r signingConfig cache ThisConfig
                             sch i (Mailer mq) (Scraper sq) metrics disableClientRoutes)) ;;
  srv <- await (ListenAndServe (RemoteApp app) port) ;;
  modify (set_httpServer (Some srv)) ;;
  log "now listening".

(** ** Running a method against its collaborators *)

Inductive Event : Type :=
| EvCall (c : Call) (r : Reply)
| EvLog (message : string).

Definition Trace := list Event.

(** The collaborators: what each call answers, given everything that
    happened before it. *)
Definition Env := Trace -> Call -> Reply.

Inductive Outcome (A : Type) : Type :=
| Resolved (a : A)
| Raised (e : Error).

Arguments Resolved {A} a.
Arguments Raised {A} e.

(** One invocation run to its end with nothing interleaved: the promise's
    outcome, [this] afterwards, and the events in the order they happened. *)
Fixpoint run {A : Type} (env : Env) (tr : Trace) (p : Prog A)
    : Outcome A * Server * Trace :=
  match p with
  | Done s a => (Resolved a, s, tr)
  | Fail s e => (Raised e, s, tr)
  | Log m p' => run env (tr ++ [EvLog m]) p'
  | Sync c k => let r := env tr c in run env (tr ++ [EvCall c r]) (k r)
  | Await s c k => let r := env tr c in run env (tr ++ [EvCall c r]) (k r s)
  end.

Definition result {A : Type} (x : Outcome A * Server * Trace) : Outcome A := fst (fst x).
Definition final {A : Type} (x : Outcome A * Server * Trace) : Server := snd (fst x).
Definition events {A : Type} (x : Outcome A * Server * Trace) : Trace := snd x.

(** [P] holds of [this] whenever another invocation can look at it: at every
    suspension and on completion, provided whatever runs in between
    maintains [P] too. *)
Fixpoint always {A : Type} (P : Server -> Prop) (p : Prog A) : Prop :=
  match p with
  | Done s _ => P s
  | Fail s _ => P s
  | Log _ p' => always P p'
  | Sync _ k => forall r, always P (k r)
  | Await s _ k => P s /\ forall r s', P s' -> always P (k r s')
  end.

(** The calls of a trace, in order. *)
Fixpoint calls (tr : Trace) : list Call :=
  match tr with
  | [] => []
  | EvCall c _ :: tr' => c :: calls tr'
  | EvLog _ :: tr' => calls tr'
  end.

(** The collaborators as seen by an invocation that starts after [tr]. *)
Definition shift (env : Env) (tr : Trace) : Env := fun t c => env (tr ++ t) c.

(** A further invocation of [m], once the run [r] has ended. *)
Definition again {A : Type} (env : Env) (m : M A) (r : Outcome A * Server * Trace)
    : Outcome A * Server * Trace :=
  run env (events r) (m (final r)).

(** A collaborator that answers [c] without throwing, whenever asked. *)
Definition returns (env : Env) (c : Call) : Prop :=
  forall tr, exists v, env tr c = Returned v.

(** ** Observations on traces and applications *)

Definition primeAll_returned (ev : Event) : bool :=
  match ev with
  | EvCall (PrimeAll _) (Returned _) => true
  | _ => false
  end.

Definition createQueue_called (ev : Event) : bool :=
  match ev with
  | EvCall (CreateQueue _ _ _ _) _ => true
  | _ => false
  end.

Definition createApp_called (ev : Event) : bool :=
  match ev with
  | EvCall (CreateApp _) _ => true
  | _ => false
  end.

Definition listen_called (ev : Event) : bool :=
  match ev with
  | EvCall (ListenAndServe _ _) _ => true
  | _ => false
  end.

(** Every event satisfying [Q] comes after some event satisfying [P]. *)
Definition only_after (P Q : Event -> bool) (tr : Trace) : Prop :=
  forall pre ev post,
    tr = pre ++ ev :: post -> Q ev = true -> existsb P pre = true.

(** The same, as a monitor reading the trace from its start. *)
Fixpoint only_afterb (P Q : Event -> bool) (seen : bool) (tr : Trace) : bool :=
  match tr with
  | [] => true
  | ev :: tr' => (negb (Q ev) || seen) && only_afterb P Q (seen || P ev) tr'
  end.

Definition is_metricsHandler (m : Middleware) : bool :=
  match m with
  | metricsHandler _ => true
  | _ => false
  end.

Definition is_basicAuth (m : Middleware) : bool :=
  match m with
  | basicAuth _ _ => true
  | _ => false
  end.

(** The application has a [GET path] route ending in the metrics handler. *)
Definition serves (path : string) (app : Express) : bool :=
  existsb (fun l => match l with
                    | Get p hs => String.eqb p path && existsb is_metricsHandler hs
                    | Use _ _ => false
                    end) app.

(** Some layer of the application, whatever its path, checks credentials. *)
Definition authenticates (app : Express) : bool :=
  existsb (fun l => match l with
                    | Use _ m => is_basicAuth m
                    | Get _ hs => existsb is_basicAuth hs
                    end) app.

(** [basicAuth] is mounted by [app.use(path, ...)]. *)
Definition mounts_auth (path : string) (app : Express) : bool :=
  existsb (fun l => match l with
                    | Use (Some p) m => String.eqb p path && is_basicAuth m
                    | _ => false
                    end) app.

(** The handler answers the request with a body. *)
Definition sends (acts : list ResAction) : bool :=
  existsb (fun a => match a with ResSend _ => true | _ => false end) acts.

(** A configured, non-empty string. *)
Definition nonempty (v : option string) : Prop :=
  exists x, v = Some x /\ x <> "".

(** The two applications [process] can assemble. *)
Definition app_with_auth (u p : option string) (reg : AggregatorRegistry) : Express :=
  [Use None accessLogger;
   Use (Some "/cluster_metrics") (basicAuth u p);
   Get "/cluster_metrics" [noCacheMiddleware; metricsHandler reg];
   Use None notFoundMiddleware; Use None errorLogger; Use None JSONErrorHandler].

Definition app_without_auth (reg : AggregatorRegistry) : Express :=
  [Use None accessLogger;
   Get "/cluster_metrics" [noCacheMiddleware; metricsHandler reg];
   Use None notFoundMiddleware; Use None errorLogger; Use None JSONErrorHandler].

(** The errors thrown by the three guards. *)
Definition already_connected : Error := JSError "server has already connected".
Definition already_processing : Error := JSError "server has already processing".
Definition not_connected : Error := JSError "server has not connected yet".

(** The same server under another [concurrency] setting. *)
Definition with_concurrency (n : Z) (s : Server) : Server :=
  let c := config s in
  mkServer (parentApp s) (schema s)
           (mkConfig (default_locale c) (disable_mongodb_autoindexing c) n
                     (metrics_username c) (metrics_password c)
                     (cluster_metrics_port c) (port c) (disable_client_routes c))
           (httpServer s) (tasks s) (redis s) (mongo s) (tenantCache s)
           (connected s) (processing s) (i18n s).

(** ** Fixtures *)

Definition single_process : Config :=
  mkConfig "en-US" false 1 None None 9001 3000 false.

Definition clustered : Config :=
  mkConfig "en-US" true 4 (Some "prom") (Some "s3cret") 9001 3000 false.

Definition fresh : Server := new_Server 101 102 103 single_process.

(** Collaborators that always answer, with a new reference each time. *)
Definition healthy : Env := fun tr _ => Returned (length tr).

(** The same, except that the tenant store cannot be reached. *)
Definition store_down : Env :=
  fun tr c =>
    match c with
    | PrimeAll _ => Threw (Rejected 503)
    | _ => Returned (length tr)
    end.

(** A registry whose aggregation succeeds, and one whose aggregation fails. *)
Definition registry_ok : AggregatorRegistry :=
  mkRegistry "text/plain; version=0.0.4; charset=utf-8"
             (fun callback => callback None "talk_requests_total 7").

Definition registry_down : AggregatorRegistry :=
  mkRegistry "text/plain; version=0.0.4; charset=utf-8"
             (fun callback => callback (Some (Rejected 1)) "").

Definition master : Runtime := mkRuntime true registry_ok.
Definition worker : Runtime := mkRuntime false registry_ok.

(** A server that went through [connect] with the clustered configuration,
    then through a first [start], then through a second one. *)
Definition ready : Server :=
  final (run healthy [] (connect (new_Server 101 102 103 clustered))).

Definition started : Outcome unit * Server * Trace :=
  run healthy [] (start (mkStartOptions None) ready).

Definition started_again : Outcome unit * Server * Trace :=
  again healthy (start (mkStartOptions None)) started.

(** ** Further observations *)

Definition threw (ev : Event) : bool :=
  match ev with
  | EvCall _ (Threw _) => true
  | _ => false
  end.

Definition createQueue_returned (ev : Event) : bool :=
  match ev with
  | EvCall (CreateQueue _ _ _ _) (Returned _) => true
  | _ => false
  end.

Definition ensureIndexes_called (ev : Event) : bool :=
  match ev with
  | EvCall (EnsureIndexes _) _ => true
  | _ => false
  end.

Definition taskProcess_called (ev : Event) : bool :=
  match ev with
  | EvCall (TaskProcess _) _ => true
  | _ => false
  end.

Definition listen_returned (ev : Event) : bool :=
  match ev with
  | EvCall (ListenAndServe _ _) (Returned _) => true
  | _ => false
  end.

Definition logged (message : string) (ev : Event) : bool :=
  match ev with
  | EvLog m => String.eqb m message
  | _ => false
  end.

(** Which collaborator a call addresses, whatever its arguments. *)
Definition is_CreateMongoDB (c : Call) : bool :=
  match c with CreateMongoDB _ => true | _ => false end.

Definition is_CreateAugmentedRedisClient (c : Call) : bool :=
  match c with CreateAugmentedRedisClient _ => true | _ => false end.

Definition is_NewTenantCache (c : Call) : bool :=
  match c with NewTenantCache _ _ _ => true | _ => false end.

Definition is_CreateQueue (c : Call) : bool :=
  match c with CreateQueue _ _ _ _ => true | _ => false end.

(** The reference returned by the first call of the trace that satisfies
    [sel] and did return. *)
Fixpoint returned_by (sel : Call -> bool) (tr : Trace) : option Handle :=
  match tr with
  | [] => None
  | EvCall c (Returned v) :: tr' => if sel c then Some v else returned_by sel tr'
  | _ :: tr' => returned_by sel tr'
  end.

(** A field after a run: what the collaborator returned if it did, else
    what the field held before. *)
Definition assigned (sel : Call -> bool) (tr : Trace) (before : option Handle)
    : option Handle :=
  match returned_by sel tr with
  | Some v => Some v
  | None => before
  end.

(** A [Threw] reply ends the run and is its outcome.  A [Threw] reply is a
    call that throws when it is made, or an awaited call whose promise
    rejects; the promise of a call that is not awaited is not looked at. *)
Definition fail_fast {A : Type} (r : Outcome A * Server * Trace) : Prop :=
  forall pre c e post,
    events r = pre ++ EvCall c (Threw e) :: post ->
    post = [] /\ result r = Raised e.

(** The same, read along the trace. *)
Fixpoint stops_at_throw {A : Type} (o : Outcome A) (tr : Trace) : Prop :=
  match tr with
  | [] => True
  | EvCall _ (Threw e) :: tr' => tr' = [] /\ o = Raised e
  | _ :: tr' => stops_at_throw o tr'
  end.

(** Collaborators none of which ever throws. *)
Definition reliable (env : Env) : Prop := forall c, returns env c.

Definition mailer_launched (ev : Event) : bool :=
  match ev with
  | EvCall (TaskProcess (Mailer _)) _ => true
  | _ => false
  end.

Definition scraper_launched (ev : Event) : bool :=
  match ev with
  | EvCall (TaskProcess (Scraper _)) _ => true
  | _ => false
  end.

(** How many events of the trace satisfy [p]. *)
Definition count (p : Event -> bool) (tr : Trace) : nat := length (filter p tr).

(** [n] invocations of [m] one after the other on the same object, each
    started when the previous one has ended. *)
Fixpoint invoke_n {A : Type} (env : Env) (m : M A) (n : nat) (s : Server) (tr : Trace)
    : Server * Trace :=
  match n with
  | O => (s, tr)
  | S k => invoke_n env m k (final (run env tr (m s))) (events (run env tr (m s)))
  end.

(** ** Awaiting, read off the tree *)

(** What is asked of a call when it is made: [primeAll] must be awaited and
    must be invoked on the cache that [new TenantCache] returned;
    [createQueue] must find a primed cache and be handed that very cache. *)
Definition call_allowed (awaited : bool) (built primed : option Handle) (c : Call)
    : Prop :=
  match c with
  | PrimeAll cache => awaited = true /\ built = Some cache
  | CreateQueue _ _ cache _ => primed <> None /\ cache = primed
  | _ => True
  end.

(** The cache built so far: the one [new TenantCache] returned. *)
Definition built_after (c : Call) (r : Reply) (built : option Handle)
    : option Handle :=
  match c, r with
  | NewTenantCache _ _ _, Returned v => Some v
  | _, _ => built
  end.

(** The cache primed so far: the one on which an awaited [primeAll]
    resolved.  A [primeAll] that is not awaited, or that rejects, primes
    nothing. *)
Definition primed_after (awaited : bool) (c : Call) (r : Reply)
    (primed : option Handle) : option Handle :=
  match c, r with
  | PrimeAll cache, Returned _ => if awaited then Some cache else primed
  | _, _ => primed
  end.

(** Along every path of the tree, whatever the collaborators answer, each
    call is allowed when it is made.  A suspended method resumes on the
    [this] it left, as in [run]. *)
Fixpoint primes_before_queue {A : Type} (built primed : option Handle) (p : Prog A)
    : Prop :=
  match p with
  | Done _ _ => True
  | Fail _ _ => True
  | Log _ p' => primes_before_queue built primed p'
  | Sync c k =>
      call_allowed false built primed c /\
      forall r, primes_before_queue (built_after c r built)
                                    (primed_after false c r primed) (k r)
  | Await s c k =>
      call_allowed true built primed c /\
      forall r, primes_before_queue (built_after c r built)
                                    (primed_after true c r primed) (k r s)
  end.

Definition is_TaskProcess (c : Call) : bool :=
  match c with TaskProcess _ => true | _ => false end.

(** The method never suspends on a call satisfying [sel]: it does not wait
    for what such a call starts. *)
Fixpoint never_awaits {A : Type} (sel : Call -> bool) (p : Prog A) : Prop :=
  match p with
  | Done _ _ => True
  | Fail _ _ => True
  | Log _ p' => never_awaits sel p'
  | Sync _ k => forall r, never_awaits sel (k r)
  | Await _ c k => sel c = false /\ forall r s', never_awaits sel (k r s')
  end.

(** In a leaf of a symbolic run, a throw contradicts reliability. *)
Ltac unreliable :=
  match goal with
  | E : ?env ?t ?c = Threw _, R : reliable ?env |- _ =>
      destruct (R c t) as [? ?]; congruence
  end.

(** ** Proof automation *)

Ltac unfold_monad :=
  cbv [bind gets modify ret throw await call deref reply log] in *.

(** Ask the collaborators for the next answer and follow both outcomes. *)
Ltac ask env :=
  match goal with
  | |- context [env ?t ?c] =>
      let v := fresh "v" in
      let e := fresh "e" in
      let E := fresh "E" in
      destruct (env t c) as [v | e] eqn:E; cbn in *
  end.

(** Run a method to its end along every path. *)
Ltac exec env :=
  repeat (cbn;
          match goal with
          | H : ?x = _ |- context [match ?x with Some _ => _ | None => _ end] =>
              rewrite H
          | H : ?x = _ |- context [if ?x then _ else _] => rewrite H
          | H : env ?t ?c = _ |- context [env ?t ?c] => rewrite H
          | |- context [match ?x with Some _ => _ | None => _ end] =>
              destruct x eqn:?
          | |- context [if ?x then _ else _] => destruct x eqn:?
          | |- context [env _ _] => ask env
          end);
  cbn.

(** Find an event in an explicit trace. *)
Ltac pick H :=
  repeat (destruct H as [H | H]; [try discriminate H|]);
  try contradiction.

(** Walk a computed tree, following every answer of the collaborators and
    every state [this] may have been left in at a suspension. *)
Ltac observe :=
  repeat (cbn in *;
          match goal with
          | |- _ /\ _ => split
          | |- forall (_ : Reply) (_ : Server), _ -> _ => intros [?v | ?e] ?s ?H
          | |- forall _ : Reply, _ => intros [?v | ?e]
          | |- context [match ?o with Some _ => _ | None => _ end] => destruct o eqn:?
          | |- context [if ?b then _ else _] => destruct b eqn:?
          end);
  cbn in *; try assumption; try reflexivity; try congruence.

(** Walk a computed tree along every answer and every resumption. *)
Ltac walk :=
  repeat (cbn;
          match goal with
          | |- _ /\ _ => split
          | |- forall _ : Reply, _ => intros [?v | ?e]
          | |- forall _ : Server, _ => intros ?s
          | |- context [match ?o with Some _ => _ | None => _ end] => destruct o eqn:?
          | |- context [if ?b then _ else _] => destruct b eqn:?
          end);
  cbn; try reflexivity; try discriminate; try exact I.

(** * Properties *)

(** ** General facts about runs *)

Lemma run_bindP {A B : Type} (env : Env) (p : Prog A) (f : A -> M B) :
  forall tr,
    run env tr (bindP p f) =
    match run env tr p with
    | (Resolved a, s, tr') => run env tr' (f a s)
    | (Raised e, s, tr') => (Raised e, s, tr')
    end.
Proof.
  induction p as [s a | s e | m p IH | c k IH | s c k IH]; intros tr; simpl.
  - reflexivity.
  - reflexivity.
  - apply IH.
  - apply IH.
  - apply IH.
Qed.

Lemma run_ext {A : Type} (p : Prog A) :
  forall env1 env2 tr,
    (forall t c, env1 t c = env2 t c) -> run env1 tr p = run env2 tr p.
Proof.
  induction p as [s a | s e | m p IH | c k IH | s c k IH];
    intros env1 env2 tr Hext; simpl.
  - reflexivity.
  - reflexivity.
  - apply IH, Hext.
  - rewrite (Hext tr c). apply IH, Hext.
  - rewrite (Hext tr c). apply IH, Hext.
Qed.

Lemma shift_shift (env : Env) (tr : Trace) (ev : Event) :
  forall t c, shift env (tr ++ [ev]) t c = shift (shift env tr) [ev] t c.
Proof.
  intros t c. unfold shift. rewrite <- app_assoc. reflexivity.
Qed.

(** Running after [tr] is running from scratch against the shifted
    collaborators, with [tr] put back in front of the trace. *)
Lemma run_shift {A : Type} (p : Prog A) :
  forall env tr,
    run env tr p =
    (result (run (shift env tr) [] p), final (run (shift env tr) [] p),
     tr ++ events (run (shift env tr) [] p)).
Proof.
  induction p as [s a | s e | m p IH | c k IH | s c k IH]; intros env tr.
  - simpl. rewrite app_nil_r. reflexivity.
  - simpl. rewrite app_nil_r. reflexivity.
  - simpl. rewrite (IH env (tr ++ [EvLog m])).
    rewrite (IH (shift env tr) [EvLog m]).
    rewrite (run_ext p _ _ [] (shift_shift env tr (EvLog m))).
    unfold result, final, events. simpl. rewrite <- app_assoc. reflexivity.
  - assert (E : shift env tr [] c = env tr c)
      by (unfold shift; rewrite app_nil_r; reflexivity).
    simpl. rewrite E. set (r := env tr c).
    rewrite (IH r env (tr ++ [EvCall c r])).
    rewrite (IH r (shift env tr) [EvCall c r]).
    rewrite (run_ext (k r) _ _ [] (shift_shift env tr (EvCall c r))).
    unfold result, final, events. simpl. rewrite <- app_assoc. reflexivity.
  - assert (E : shift env tr [] c = env tr c)
      by (unfold shift; rewrite app_nil_r; reflexivity).
    simpl. rewrite E. set (r := env tr c).
    rewrite (IH r s env (tr ++ [EvCall c r])).
    rewrite (IH r s (shift env tr) [EvCall c r]).
    rewrite (run_ext (k r s) _ _ [] (shift_shift env tr (EvCall c r))).
    unfold result, final, events. simpl. rewrite <- app_assoc. reflexivity.
Qed.

Lemma always_bindP {A B : Type} (P : Server -> Prop) (p : Prog A) (f : A -> M B) :
  always P p ->
  (forall a s, P s -> always P (f a s)) ->
  always P (bindP p f).
Proof.
  intros Hp Hf.
  induction p as [s a | s e | m p IH | c k IH | s c k IH]; simpl in *.
  - apply Hf, Hp.
  - exact Hp.
  - apply IH, Hp.
  - intros r. apply IH, Hp.
  - destruct Hp as [Hs Hk]. split; [exact Hs|].
    intros r s' Hs'. apply IH, Hk, Hs'.
Qed.

(** What holds at every point where [this] can be observed holds in
    particular of [this] once the invocation has run to its end. *)
Lemma always_final {A : Type} (P : Server -> Prop) (env : Env) (p : Prog A) :
  forall tr, always P p -> P (final (run env tr p)).
Proof.
  induction p as [s a | s e | m p IH | c k IH | s c k IH]; intros tr H; simpl in *.
  - exact H.
  - exact H.
  - apply IH, H.
  - apply IH, H.
  - destruct H as [Hs Hk]. apply IH, Hk, Hs.
Qed.

Lemma always_impl {A : Type} (P Q : Server -> Prop) (p : Prog A) :
  (forall s, P s -> Q s) -> (forall s, Q s -> P s) -> always P p -> always Q p.
Proof.
  intros PQ QP.
  induction p as [s a | s e | m p IH | c k IH | s c k IH]; simpl.
  - apply PQ.
  - apply PQ.
  - apply IH.
  - intros H r. apply IH, H.
  - intros [Hs Hk]. split; [apply PQ, Hs|].
    intros r s' Hs'. apply IH, Hk, QP, Hs'.
Qed.

Lemma only_afterb_sound (P Q : Event -> bool) :
  forall tr seen pre ev post,
    only_afterb P Q seen tr = true ->
    tr = pre ++ ev :: post -> Q ev = true ->
    seen || existsb P pre = true.
Proof.
  induction tr as [|x tr IH]; intros seen pre ev post Hm Heq HQ.
  - destruct pre; discriminate.
  - simpl in Hm. apply andb_true_iff in Hm. destruct Hm as [Hx Hrest].
    destruct pre as [|y pre]; simpl in Heq; injection Heq as -> ->.
    + rewrite HQ in Hx. simpl in Hx. rewrite Hx. reflexivity.
    + simpl. specialize (IH _ _ _ _ Hrest eq_refl HQ).
      rewrite orb_assoc. exact IH.
Qed.

Lemma only_afterb_only_after (P Q : Event -> bool) (tr : Trace) :
  only_afterb P Q false tr = true -> only_after P Q tr.
Proof.
  intros Hm pre ev post Heq HQ.
  exact (only_afterb_sound P Q tr false pre ev post Hm Heq HQ).
Qed.

Lemma healthy_returns (c : Call) : returns healthy c.
Proof. intros tr. exists (length tr). reflexivity. Qed.

Lemma truthy_nonempty (v : option string) : truthy v = true <-> nonempty v.
Proof.
  unfold nonempty. destruct v as [x|]; simpl.
  - rewrite negb_true_iff. split.
    + intros H. exists x. split; [reflexivity|].
      apply String.eqb_neq. exact H.
    + intros [y [Hy Hne]]. injection Hy as <-.
      apply String.eqb_neq. exact Hne.
  - split; [discriminate|]. intros [y [Hy _]]. discriminate.
Qed.

Lemma credentials_truthy (u p : option string) :
  truthy u && truthy p = true <-> nonempty u /\ nonempty p.
Proof. rewrite andb_true_iff, !truthy_nonempty. reflexivity. Qed.

(** ** The guards *)

Lemma connect_guard (s : Server) :
  connected s = true -> connect s = Fail s already_connected.
Proof.
  intros H. unfold connect. unfold_monad. rewrite H. reflexivity.
Qed.

Lemma process_guard (rt : Runtime) (s : Server) :
  processing s = true -> process rt s = Fail s already_processing.
Proof.
  intros H. unfold process. unfold_monad. rewrite H. reflexivity.
Qed.

Lemma start_guard (o : ServerStartOptions) (s : Server) :
  connected s = false -> start o s = Fail s not_connected.
Proof.
  intros H. unfold start. unfold_monad. rewrite H. reflexivity.
Qed.

(** [start] past its guard: the first thing it does is to ask for the
    signing configuration. *)
Lemma start_passes_guard (o : ServerStartOptions) (s : Server) :
  connected s = true ->
  exists k, start o s = Sync (CreateJWTSigningConfig ThisConfig) k.
Proof.
  intros H. unfold start. unfold_monad. rewrite H. cbn. eexists. reflexivity.
Qed.

(** Once [connect] has begun, [connected] is set wherever [this] can be
    observed, as long as nothing else clears it. *)
Lemma connect_sets_connected (s : Server) :
  always (fun s' => connected s' = true) (connect s).
Proof.
  destruct (connected s) eqn:H.
  - rewrite (connect_guard s H). exact H.
  - unfold connect. unfold_monad. rewrite H. observe.
Qed.

Lemma process_sets_processing (rt : Runtime) (s : Server) :
  always (fun s' => processing s' = true) (process rt s).
Proof.
  destruct (processing s) eqn:H.
  - rewrite (process_guard rt s H). exact H.
  - unfold process. unfold_monad. rewrite H. observe.
Qed.

(** Only [connect] writes [connected] and only [process] writes
    [processing]: the other methods leave the flag as they found it, so the
    assumption made by [always] about what runs in between is met by the
    methods themselves. *)
Lemma connected_untouched (rt : Runtime) (o : ServerStartOptions) (s : Server) (b : bool) :
  connected s = b ->
  always (fun s' => connected s' = b) (process rt s) /\
  always (fun s' => connected s' = b) (start o s).
Proof.
  intros H. split.
  - unfold process. unfold_monad. observe.
  - unfold start. unfold_monad. observe.
Qed.

Lemma processing_untouched (o : ServerStartOptions) (s : Server) (b : bool) :
  processing s = b ->
  always (fun s' => processing s' = b) (connect s) /\
  always (fun s' => processing s' = b) (start o s).
Proof.
  intros H. split.
  - unfold connect. unfold_monad. observe.
  - unfold start. unfold_monad. observe.
Qed.

(** ** [connect] *)

(** C1. On every path of [connect], whatever the collaborators answer,
    [primeAll] is awaited, on the tenant cache that [new TenantCache]
    returned, and [createQueue] is reached only in the continuation of that
    await once it has resolved, and is handed that same cache.  So in every
    run a call to [createQueue] comes after a [primeAll] that returned, and
    a run that resolves has built the cache, primed it and created the
    queues over it. *)
Theorem connect_primes_before_createQueue (env : Env) (s : Server) :
  primes_before_queue None None (connect s) /\
  only_after primeAll_returned createQueue_called
             (events (run env [] (connect s))) /\
  (result (run env [] (connect s)) = Resolved tt ->
   existsb createQueue_called (events (run env [] (connect s))) = true) /\
  (result (run env [] (connect s)) = Resolved tt ->
   exists m rc cache v mq i q,
     In (EvCall (NewTenantCache m rc ModuleConfig) (Returned cache))
        (events (run env [] (connect s))) /\
     In (EvCall (PrimeAll cache) (Returned v)) (events (run env [] (connect s))) /\
     In (EvCall (CreateQueue ThisConfig mq (Some cache) i) (Returned q))
        (events (run env [] (connect s)))).
Proof.
  split.
  { destruct (connected s) eqn:H.
    - rewrite (connect_guard s H). exact I.
    - unfold connect. unfold_monad. rewrite H. walk. }
  destruct (connected s) eqn:H.
  - rewrite (connect_guard s H). cbn.
    split; [|split; discriminate].
    apply only_afterb_only_after. reflexivity.
  - unfold connect. unfold_monad. rewrite H.
    exec env;
      (split; [apply only_afterb_only_after; reflexivity|]);
      (split; [first [discriminate | reflexivity]|]);
      intros R; try discriminate R.
    do 7 eexists. cbn. repeat split; eauto 10.
Qed.

Lemma connect_primes_before_createQueue_witness :
  result (run healthy [] (connect fresh)) = Resolved tt /\
  existsb createQueue_called (events (run healthy [] (connect fresh))) = true /\
  exists m rc cache v mq i q,
    In (EvCall (NewTenantCache m rc ModuleConfig) (Returned cache))
       (events (run healthy [] (connect fresh))) /\
    In (EvCall (PrimeAll cache) (Returned v)) (events (run healthy [] (connect fresh))) /\
    In (EvCall (CreateQueue ThisConfig mq (Some cache) i) (Returned q))
       (events (run healthy [] (connect fresh))).
Proof.
  split; [reflexivity|]. split.
  - apply (proj1 (proj2 (proj2 (connect_primes_before_createQueue healthy fresh)))).
    reflexivity.
  - apply (proj2 (proj2 (proj2 (connect_primes_before_createQueue healthy fresh)))).
    reflexivity.
Defined.

(** C2. Once an invocation of [connect] has begun, at each of its
    suspensions and after it has ended (however it ended), a further
    [connect] throws "server has already connected" at once: no call is
    made and [this] is left as it was.  The same holds of [process] with
    "server has already processing". *)
Theorem double_invocation_throws (env : Env) (rt : Runtime) (s : Server) :
  always (fun s' => connect s' = Fail s' already_connected) (connect s) /\
  always (fun s' => process rt s' = Fail s' already_processing) (process rt s) /\
  again env connect (run env [] (connect s)) =
    (Raised (JSError "server has already connected"),
     final (run env [] (connect s)), events (run env [] (connect s))) /\
  again env (process rt) (run env [] (process rt s)) =
    (Raised (JSError "server has already processing"),
     final (run env [] (process rt s)), events (run env [] (process rt s))).
Proof.
  assert (Hc : forall x, connect x = Fail x already_connected <-> connected x = true).
  { intros x. split; [|apply connect_guard].
    destruct (connected x) eqn:E; [reflexivity|].
    unfold connect. unfold_monad. rewrite E. discriminate. }
  assert (Hp : forall x, process rt x = Fail x already_processing <-> processing x = true).
  { intros x. split; [|apply process_guard].
    destruct (processing x) eqn:E; [reflexivity|].
    unfold process. unfold_monad. rewrite E.
    cbn. destruct (disable_mongodb_autoindexing (config x)); cbn; discriminate. }
  split; [|split; [|split]].
  - apply (always_impl (fun s' => connected s' = true)).
    + intros x. apply Hc.
    + intros x. apply Hc.
    + apply connect_sets_connected.
  - apply (always_impl (fun s' => processing s' = true)).
    + intros x. apply Hp.
    + intros x. apply Hp.
    + apply process_sets_processing.
  - unfold again.
    rewrite (connect_guard (final (run env [] (connect s)))); [reflexivity|].
    apply (always_final (fun s' => connected s' = true)), connect_sets_connected.
  - unfold again.
    rewrite (process_guard rt (final (run env [] (process rt s)))); [reflexivity|].
    apply (always_final (fun s' => processing s' = true)), process_sets_processing.
Qed.

(** C4. If [primeAll] raises, [connect] raises that very error, and the run
    neither calls [createQueue] nor assigns [this.tasks]. *)
Theorem connect_propagates_primeAll_failure
    (env : Env) (s : Server) (cache : Handle) (e : Error) :
  In (EvCall (PrimeAll cache) (Threw e)) (events (run env [] (connect s))) ->
  result (run env [] (connect s)) = Raised e /\
  existsb createQueue_called (events (run env [] (connect s))) = false /\
  tasks (final (run env [] (connect s))) = tasks s.
Proof.
  destruct (connected s) eqn:H.
  - rewrite (connect_guard s H). cbn. intros [].
  - unfold connect. unfold_monad. rewrite H.
    exec env; intros Hin; pick Hin.
    injection Hin as _ <-. repeat split.
Qed.

Lemma connect_propagates_primeAll_failure_witness :
  In (EvCall (PrimeAll 4) (Threw (Rejected 503)))
     (events (run store_down [] (connect fresh))) /\
  result (run store_down [] (connect fresh)) = Raised (Rejected 503) /\
  existsb createQueue_called (events (run store_down [] (connect fresh))) = false /\
  tasks (final (run store_down [] (connect fresh))) = tasks fresh.
Proof.
  assert (H : In (EvCall (PrimeAll 4) (Threw (Rejected 503)))
                 (events (run store_down [] (connect fresh)))).
  { cbn. do 5 right. left. reflexivity. }
  split; [exact H|].
  exact (connect_propagates_primeAll_failure store_down fresh 4 (Rejected 503) H).
Defined.

(** C10. [connect] raises the [connected] flag before its first call to a
    collaborator.  So when [connect] fails, at whatever step, the flag stays
    raised: a later [connect] throws "server has already connected" instead
    of trying again, and [start] gets past its guard. *)
Theorem connect_failure_leaves_connected (env : Env) (s : Server) :
  (connected s = false ->
   exists k, connect s = Await (set_connected true s) (I18nLoad (i18n s)) k) /\
  (forall e,
     result (run env [] (connect s)) = Raised e ->
     connected (final (run env [] (connect s))) = true /\
     connect (final (run env [] (connect s))) =
       Fail (final (run env [] (connect s))) (JSError "server has already connected") /\
     forall o, exists k,
       start o (final (run env [] (connect s))) =
         Sync (CreateJWTSigningConfig ThisConfig) k).
Proof.
  assert (Hc : connected (final (run env [] (connect s))) = true).
  { apply (always_final (fun s' => connected s' = true)), connect_sets_connected. }
  split.
  - intros H. unfold connect. unfold_monad. rewrite H. cbn. eexists. reflexivity.
  - intros e _. split; [exact Hc|]. split.
    + apply connect_guard, Hc.
    + intros o. apply start_passes_guard, Hc.
Qed.

Lemma connect_failure_leaves_connected_witness :
  connected fresh = false /\
  result (run store_down [] (connect fresh)) = Raised (Rejected 503) /\
  existsb primeAll_returned (events (run store_down [] (connect fresh))) = false /\
  connected (final (run store_down [] (connect fresh))) = true /\
  connect (final (run store_down [] (connect fresh))) =
    Fail (final (run store_down [] (connect fresh))) (JSError "server has already connected") /\
  forall o, exists k,
    start o (final (run store_down [] (connect fresh))) =
      Sync (CreateJWTSigningConfig ThisConfig) k.
Proof.
  split; [reflexivity|]. split; [reflexivity|]. split; [reflexivity|].
  apply (proj2 (connect_failure_leaves_connected store_down fresh) (Rejected 503)).
  reflexivity.
Defined.

(** ** [start] *)

(** C5. On a server whose [connected] flag is still [false], [start] throws
    "server has not connected yet" at once: it makes no call at all, so the
    application is neither created nor bound. *)
Theorem start_requires_connect
    (env : Env) (o : ServerStartOptions) (s : Server) (tr : Trace) :
  connected s = false ->
  start o s = Fail s (JSError "server has not connected yet") /\
  run env tr (start o s) = (Raised (JSError "server has not connected yet"), s, tr).
Proof.
  intros H. rewrite (start_guard o s H). split; reflexivity.
Qed.

Lemma start_requires_connect_witness :
  connected fresh = false /\
  start (mkStartOptions None) fresh = Fail fresh (JSError "server has not connected yet") /\
  run healthy [] (start (mkStartOptions None) fresh) =
    (Raised (JSError "server has not connected yet"), fresh, []).
Proof.
  split; [reflexivity|].
  apply (start_requires_connect healthy (mkStartOptions None) fresh []).
  reflexivity.
Defined.

(** One run of [start] on a server that is connected and has its queues:
    the guards stay as they were, the body is entered, an error can only
    come from a collaborator, and a run that resolves has created and bound
    the application. *)
Lemma start_body (env : Env) (o : ServerStartOptions) (s : Server) (q : Handle) :
  connected s = true -> tasks s = Some q ->
  (connected (final (run env [] (start o s))) = true /\
   tasks (final (run env [] (start o s))) = Some q) /\
  hd_error (calls (events (run env [] (start o s)))) =
    Some (CreateJWTSigningConfig ThisConfig) /\
  (forall e, result (run env [] (start o s)) = Raised e ->
             exists c, In (EvCall c (Threw e)) (events (run env [] (start o s)))) /\
  (result (run env [] (start o s)) = Resolved tt ->
   existsb createApp_called (events (run env [] (start o s))) = true /\
   existsb listen_called (events (run env [] (start o s))) = true).
Proof.
  intros Hc Ht. unfold start. unfold_monad. rewrite Hc. cbn.
  exec env; (split; [split; assumption|]); (split; [reflexivity|]);
    (split; [intros x Hx; try discriminate Hx; injection Hx as <-;
             eexists; cbn; eauto 6
            | intros Hx; try discriminate Hx; split; reflexivity]).
Qed.

(** C3, as stated, fails: on a connected server whose first [start]
    resolved, a second [start] resolves too, after creating and binding the
    application once more. *)
Lemma second_start_does_not_raise :
  connected ready = true /\
  result started = Resolved tt /\
  result started_again = Resolved tt /\
  events started_again =
    events started ++
    [EvCall (CreateJWTSigningConfig ThisConfig) (Returned 4);
     EvCall (CreateApp (mkAppOptions 101 (Some 1) (Some 2) 4 (Some 4) ThisConfig
                                     102 103 (Mailer 6) (Scraper 6) false false))
            (Returned 5);
     EvCall (ListenAndServe (RemoteApp 5) 3000) (Returned 6);
     EvLog "now listening"].
Proof. repeat split. Qed.

(** C3, amended. [start] has no guard against being invoked again.  On a
    server that is connected and has its queues, a second [start] enters the
    body like the first: it asks for the signing configuration first, it
    raises only what a collaborator throws, and when it resolves it has
    called [createApp] and [listenAndServe] again. *)
Theorem start_has_no_repeat_guard
    (env : Env) (o : ServerStartOptions) (s : Server) (q : Handle) :
  connected s = true -> tasks s = Some q ->
  exists new,
    events (again env (start o) (run env [] (start o s))) =
      events (run env [] (start o s)) ++ new /\
    hd_error (calls new) = Some (CreateJWTSigningConfig ThisConfig) /\
    (forall e,
       result (again env (start o) (run env [] (start o s))) = Raised e ->
       exists c, In (EvCall c (Threw e)) new) /\
    (result (again env (start o) (run env [] (start o s))) = Resolved tt ->
     existsb createApp_called new = true /\ existsb listen_called new = true).
Proof.
  intros Hc Ht.
  destruct (start_body env o s q Hc Ht) as [[Hc1 Ht1] _].
  set (r1 := run env [] (start o s)) in *.
  unfold again. rewrite run_shift.
  destruct (start_body (shift env (events r1)) o (final r1) q Hc1 Ht1)
    as [_ [Hhd [Herr Hok]]].
  eexists. split; [reflexivity|]. split; [exact Hhd|]. split.
  - exact Herr.
  - exact Hok.
Qed.

Lemma start_has_no_repeat_guard_witness :
  exists new,
    events started_again = events started ++ new /\
    hd_error (calls new) = Some (CreateJWTSigningConfig ThisConfig) /\
    (forall e, result started_again = Raised e ->
               exists c, In (EvCall c (Threw e)) new) /\
    (result started_again = Resolved tt ->
     existsb createApp_called new = true /\ existsb listen_called new = true).
Proof.
  apply (start_has_no_repeat_guard healthy (mkStartOptions None) ready 6);
    reflexivity.
Defined.

(** ** [process] *)

(** C6. Whenever [process] calls [listenAndServe], the process is the
    cluster master and [concurrency] exceeds 1, and what is served is the
    metrics application, with its [/cluster_metrics] route, on
    [cluster_metrics_port].  Conversely, once the job processors have been
    launched, a master with [concurrency] above 1 does call
    [listenAndServe]. *)
Theorem process_serves_cluster_metrics_iff_leader (env : Env) (rt : Runtime) (s : Server) :
  (forall app port r,
     In (EvCall (ListenAndServe app port) r) (events (run env [] (process rt s))) ->
     isMaster rt = true /\ (concurrency (config s) > 1)%Z /\
     port = cluster_metrics_port (config s) /\
     exists layers, app = LocalApp layers /\ serves "/cluster_metrics" layers = true) /\
  (forall q v,
     In (EvCall (TaskProcess (Scraper q)) (Returned v))
        (events (run env [] (process rt s))) ->
     isMaster rt = true -> (concurrency (config s) > 1)%Z ->
     existsb listen_called (events (run env [] (process rt s))) = true).
Proof.
  destruct (processing s) eqn:H.
  - rewrite (process_guard rt s H). cbn. split; intros; contradiction.
  - unfold process. unfold_monad. rewrite H.
    exec env;
      (split;
       [ intros app port r Hin; pick Hin
       | intros q w Hin Hm Hc; pick Hin; try reflexivity ]).
    all: try (injection Hin as <- <- <-).
    all: try match goal with
             | L : _ && _ = true |- _ =>
                 apply andb_true_iff in L; destruct L as [L1 L2];
                 apply Z.gtb_lt in L2
             end.
    all: try (repeat split; try assumption; try lia; eexists; split; reflexivity).
    all: match goal with
         | L : _ && _ = false |- _ =>
             rewrite Hm in L; cbn in L;
             assert ((concurrency (config s) >? 1)%Z = true) by (apply Z.gtb_lt; lia);
             congruence
         end.
Qed.

Lemma process_serves_cluster_metrics_iff_leader_witness :
  In (EvCall (TaskProcess (Scraper 6)) (Returned 2))
     (events (run healthy [] (process master ready))) /\
  isMaster master = true /\ (concurrency (config ready) > 1)%Z /\
  existsb listen_called (events (run healthy [] (process master ready))) = true.
Proof.
  assert (H : In (EvCall (TaskProcess (Scraper 6)) (Returned 2))
                 (events (run healthy [] (process master ready)))).
  { cbn. do 2 right. left. reflexivity. }
  split; [exact H|]. split; [reflexivity|]. split; [reflexivity|].
  apply (proj2 (process_serves_cluster_metrics_iff_leader healthy master ready)
               6 2 H); reflexivity.
Defined.

(** C7. Once [process] is past its guard and the indexing step, it calls
    [mailer.process()] and then [scraper.process()], and nothing has been
    served before they are; the run up to and including the two launches is
    the same for every value of [cluster.isMaster] and of [concurrency]. *)
Theorem process_launches_job_processors (env : Env) (s : Server) (q : Handle) :
  processing s = false ->
  tasks s = Some q ->
  (disable_mongodb_autoindexing (config s) = false ->
   returns env (EnsureIndexes (mongo s))) ->
  returns env (TaskProcess (Mailer q)) ->
  exists pre v r,
    existsb listen_called pre = false /\
    forall (master : bool) (reg : AggregatorRegistry) (n : Z),
    exists post,
      events (run env [] (process (mkRuntime master reg) (with_concurrency n s))) =
        pre ++ EvCall (TaskProcess (Mailer q)) (Returned v)
            :: EvCall (TaskProcess (Scraper q)) r :: post.
Proof.
  intros Hp Ht Hidx Hmail.
  destruct (disable_mongodb_autoindexing (config s)) eqn:D.
  - clear Hidx.
    destruct (Hmail [EvLog "mongodb autoindexing is disabled, skipping indexing"])
      as [v Hv].
    exists [EvLog "mongodb autoindexing is disabled, skipping indexing"], v,
      (env [EvLog "mongodb autoindexing is disabled, skipping indexing";
            EvCall (TaskProcess (Mailer q)) (Returned v)]
           (TaskProcess (Scraper q))).
    split; [reflexivity|]. intros m reg n.
    unfold process. unfold_monad. cbn. rewrite Hp. cbn. rewrite D.
    exec env; eexists; reflexivity.
  - destruct (Hidx eq_refl [EvLog "mongodb autoindexing is enabled, starting indexing"])
      as [w Hw].
    destruct (Hmail [EvLog "mongodb autoindexing is enabled, starting indexing";
                     EvCall (EnsureIndexes (mongo s)) (Returned w)])
      as [v Hv].
    exists [EvLog "mongodb autoindexing is enabled, starting indexing";
            EvCall (EnsureIndexes (mongo s)) (Returned w)], v,
      (env [EvLog "mongodb autoindexing is enabled, starting indexing";
            EvCall (EnsureIndexes (mongo s)) (Returned w);
            EvCall (TaskProcess (Mailer q)) (Returned v)]
           (TaskProcess (Scraper q))).
    split; [reflexivity|]. intros m reg n.
    unfold process. unfold_monad. cbn. rewrite Hp. cbn. rewrite D.
    exec env; eexists; reflexivity.
Qed.

Lemma process_launches_job_processors_witness :
  exists pre v r,
    existsb listen_called pre = false /\
    forall (master : bool) (reg : AggregatorRegistry) (n : Z),
    exists post,
      events (run healthy [] (process (mkRuntime master reg) (with_concurrency n ready))) =
        pre ++ EvCall (TaskProcess (Mailer 6)) (Returned v)
            :: EvCall (TaskProcess (Scraper 6)) r :: post.
Proof.
  apply (process_launches_job_processors healthy ready 6).
  - reflexivity.
  - reflexivity.
  - intros _. apply healthy_returns.
  - apply healthy_returns.
Defined.

(** ** The [/cluster_metrics] endpoint *)

(** C8. When aggregation reports an error, the handler passes it to [next]
    and sends nothing; when it reports none, the handler sets the
    registry's content type and sends the metrics. *)
Theorem cluster_metrics_handler (aggregatorRegistry : AggregatorRegistry) :
  (forall err metrics,
     metricsCallback aggregatorRegistry (Some err) metrics = [Next err] /\
     sends (metricsCallback aggregatorRegistry (Some err) metrics) = false) /\
  (forall metrics,
     metricsCallback aggregatorRegistry None metrics =
       [ResSet "Content-Type" (contentType aggregatorRegistry); ResSend metrics]) /\
  (forall err metrics,
     (forall callback,
        clusterMetrics aggregatorRegistry callback = callback (Some err) metrics) ->
     handleClusterMetrics aggregatorRegistry = [Next err] /\
     sends (handleClusterMetrics aggregatorRegistry) = false) /\
  (forall metrics,
     (forall callback,
        clusterMetrics aggregatorRegistry callback = callback None metrics) ->
     handleClusterMetrics aggregatorRegistry =
       [ResSet "Content-Type" (contentType aggregatorRegistry); ResSend metrics]).
Proof.
  split; [|split; [|split]].
  - intros err metrics. split; reflexivity.
  - intros metrics. reflexivity.
  - intros err metrics H. unfold handleClusterMetrics. rewrite H.
    split; reflexivity.
  - intros metrics H. unfold handleClusterMetrics. rewrite H. reflexivity.
Qed.

Lemma cluster_metrics_handler_witness :
  (handleClusterMetrics registry_down = [Next (Rejected 1)] /\
   sends (handleClusterMetrics registry_down) = false) /\
  handleClusterMetrics registry_ok =
    [ResSet "Content-Type" "text/plain; version=0.0.4; charset=utf-8";
     ResSend "talk_requests_total 7"].
Proof.
  split.
  - apply (proj1 (proj2 (proj2 (cluster_metrics_handler registry_down)))
                 (Rejected 1) "").
    intros callback. reflexivity.
  - apply (proj2 (proj2 (proj2 (cluster_metrics_handler registry_ok)))
                 "talk_requests_total 7").
    intros callback. reflexivity.
Defined.

(** C9. The metrics application that [process] serves has [basicAuth]
    mounted on [/cluster_metrics], ahead of the route, exactly when
    [metrics_username] and [metrics_password] are both non-empty; otherwise
    no layer of it checks credentials. *)
Theorem metrics_auth_iff_credentials
    (env : Env) (rt : Runtime) (s : Server) (app : Express) (port : Z) (r : Reply) :
  In (EvCall (ListenAndServe (LocalApp app) port) r)
     (events (run env [] (process rt s))) ->
  (mounts_auth "/cluster_metrics" app = true <->
   nonempty (metrics_username (config s)) /\ nonempty (metrics_password (config s))) /\
  (nonempty (metrics_username (config s)) /\ nonempty (metrics_password (config s)) ->
   app = app_with_auth (metrics_username (config s)) (metrics_password (config s))
                       (new_AggregatorRegistry rt)) /\
  (~ (nonempty (metrics_username (config s)) /\ nonempty (metrics_password (config s))) ->
   app = app_without_auth (new_AggregatorRegistry rt) /\ authenticates app = false).
Proof.
  destruct (processing s) eqn:H.
  - rewrite (process_guard rt s H). cbn. contradiction.
  - unfold process. unfold_monad. rewrite H.
    exec env; intros Hin; pick Hin; injection Hin as <- _ _.
    all: match goal with
         | L : truthy _ && truthy _ = true |- _ =>
             apply credentials_truthy in L;
             split; [split; [intros _; exact L | reflexivity]|];
             split; [reflexivity|]; intros N; contradiction
         | L : truthy _ && truthy _ = false |- _ =>
             assert (N : ~ (nonempty (metrics_username (config s)) /\
                            nonempty (metrics_password (config s))))
               by (rewrite <- credentials_truthy, L; discriminate);
             split; [split; [discriminate | intros P; contradiction]|];
             split; [intros P; contradiction | split; reflexivity]
         end.
Qed.

Lemma metrics_auth_iff_credentials_witness :
  In (EvCall (ListenAndServe
                (LocalApp (app_with_auth (Some "prom") (Some "s3cret") registry_ok))
                9001) (Returned 4))
     (events (run healthy [] (process master ready))) /\
  mounts_auth "/cluster_metrics"
              (app_with_auth (Some "prom") (Some "s3cret") registry_ok) = true.
Proof.
  assert (H : In (EvCall (ListenAndServe
                            (LocalApp (app_with_auth (Some "prom") (Some "s3cret")
                                                     registry_ok))
                            9001) (Returned 4))
                 (events (run healthy [] (process master ready)))).
  { cbn. do 4 right. left. reflexivity. }
  split; [exact H|].
  apply (proj1 (metrics_auth_iff_credentials healthy master ready _ 9001 (Returned 4) H)).
  split; eexists; (split; [reflexivity | discriminate]).
Defined.

(** * Further properties of the life cycle *)

Lemma stops_at_throw_fail_fast {A : Type} (o : Outcome A) (s : Server) (tr : Trace) :
  stops_at_throw o tr -> fail_fast (o, s, tr).
Proof.
  unfold fail_fast, events, result. simpl.
  induction tr as [|x tr IH]; intros H pre c e post Heq.
  - destruct pre; discriminate.
  - destruct pre as [|y pre]; simpl in Heq; injection Heq as -> ->.
    + simpl in H. destruct H as [-> ->]. split; reflexivity.
    + apply (IH) with (pre := pre) (c := c).
      * destruct y as [c' [v|e']|m]; simpl in H.
        -- exact H.
        -- destruct H as [H _]. destruct pre; discriminate.
        -- exact H.
      * reflexivity.
Qed.

Lemma shift_reliable (env : Env) (tr : Trace) : reliable env -> reliable (shift env tr).
Proof.
  intros R c t. unfold shift. apply R.
Qed.

(** X1. None of the three methods catches an error or goes on after one:
    in every run, a call that throws when it is made, or an awaited call
    that rejects, is the last event of the run and its error is the one the
    method raises.  This says nothing of what [mailer.process()] and
    [scraper.process()] start: [process] never awaits them. *)
Theorem methods_fail_fast (env : Env) (rt : Runtime) (o : ServerStartOptions) (s : Server) :
  fail_fast (run env [] (connect s)) /\
  fail_fast (run env [] (process rt s)) /\
  fail_fast (run env [] (start o s)) /\
  never_awaits is_TaskProcess (process rt s).
Proof.
  split; [|split; [|split]].
  - unfold connect. unfold_monad.
    exec env; apply stops_at_throw_fail_fast; cbn; auto.
  - unfold process. unfold_monad.
    exec env; apply stops_at_throw_fail_fast; cbn; auto.
  - unfold start. unfold_monad.
    exec env; apply stops_at_throw_fail_fast; cbn; auto.
  - unfold process. unfold_monad. walk.
Qed.

Lemma methods_fail_fast_witness :
  fail_fast (run store_down [] (connect fresh)) /\
  events (run store_down [] (connect fresh)) =
    [EvCall (I18nLoad 103) (Returned 0);
     EvCall (CreateMongoDB ModuleConfig) (Returned 1);
     EvCall (CreateAugmentedRedisClient ModuleConfig) (Returned 2);
     EvCall (CreateRedisClient ThisConfig) (Returned 3);
     EvCall (NewTenantCache (Some 1) 3 ModuleConfig) (Returned 4)] ++
    EvCall (PrimeAll 4) (Threw (Rejected 503)) :: [].
Proof.
  split.
  - apply (proj1 (methods_fail_fast store_down master (mkStartOptions None) fresh)).
  - reflexivity.
Defined.

(** X2. When [connect] resolves, it has made exactly its eight calls, in
    source order and each with what the earlier ones returned: the tenant
    cache is built over the database [createMongoDB] returned, [primeAll]
    runs on that cache, and [createQueue] receives that database and that
    cache.  [this] then holds the four references and [connected]. *)
Theorem connect_resolved (env : Env) (s : Server) :
  result (run env [] (connect s)) = Resolved tt ->
  exists v0 db r rc tc v1 q v2,
    events (run env [] (connect s)) =
      [EvCall (I18nLoad (i18n s)) (Returned v0);
       EvCall (CreateMongoDB ModuleConfig) (Returned db);
       EvCall (CreateAugmentedRedisClient ModuleConfig) (Returned r);
       EvCall (CreateRedisClient ThisConfig) (Returned rc);
       EvCall (NewTenantCache (Some db) rc ModuleConfig) (Returned tc);
       EvCall (PrimeAll tc) (Returned v1);
       EvCall (CreateQueue ThisConfig (Some db) (Some tc) (i18n s)) (Returned q);
       EvCall (CollectDefaultMetrics 5000) (Returned v2)] /\
    final (run env [] (connect s)) =
      set_tasks (Some q)
        (set_tenantCache (Some tc)
           (set_redis (Some r) (set_mongo (Some db) (set_connected true s)))).
Proof.
  destruct (connected s) eqn:H.
  - rewrite (connect_guard s H). discriminate.
  - unfold connect. unfold_monad. rewrite H.
    exec env; intros R; try discriminate R.
    repeat eexists.
Qed.

Lemma connect_resolved_witness :
  exists v0 db r rc tc v1 q v2,
    events (run healthy [] (connect fresh)) =
      [EvCall (I18nLoad (i18n fresh)) (Returned v0);
       EvCall (CreateMongoDB ModuleConfig) (Returned db);
       EvCall (CreateAugmentedRedisClient ModuleConfig) (Returned r);
       EvCall (CreateRedisClient ThisConfig) (Returned rc);
       EvCall (NewTenantCache (Some db) rc ModuleConfig) (Returned tc);
       EvCall (PrimeAll tc) (Returned v1);
       EvCall (CreateQueue ThisConfig (Some db) (Some tc) (i18n fresh)) (Returned q);
       EvCall (CollectDefaultMetrics 5000) (Returned v2)] /\
    final (run healthy [] (connect fresh)) =
      set_tasks (Some q)
        (set_tenantCache (Some tc)
           (set_redis (Some r) (set_mongo (Some db) (set_connected true fresh)))).
Proof.
  apply (connect_resolved healthy fresh). reflexivity.
Defined.

(** X3. However far [connect] gets, each reference of [this] is the one its
    collaborator returned if that call returned, and is otherwise what it
    was before; [connect] writes no other field but [connected]. *)
Theorem connect_assigns_what_returned (env : Env) (s : Server) :
  connected s = false ->
  mongo (final (run env [] (connect s))) =
    assigned is_CreateMongoDB (events (run env [] (connect s))) (mongo s) /\
  redis (final (run env [] (connect s))) =
    assigned is_CreateAugmentedRedisClient (events (run env [] (connect s))) (redis s) /\
  tenantCache (final (run env [] (connect s))) =
    assigned is_NewTenantCache (events (run env [] (connect s))) (tenantCache s) /\
  tasks (final (run env [] (connect s))) =
    assigned is_CreateQueue (events (run env [] (connect s))) (tasks s) /\
  connected (final (run env [] (connect s))) = true /\
  processing (final (run env [] (connect s))) = processing s /\
  httpServer (final (run env [] (connect s))) = httpServer s /\
  config (final (run env [] (connect s))) = config s /\
  parentApp (final (run env [] (connect s))) = parentApp s /\
  schema (final (run env [] (connect s))) = schema s /\
  i18n (final (run env [] (connect s))) = i18n s.
Proof.
  intros H. unfold connect. unfold_monad. rewrite H.
  exec env; repeat split.
Qed.

Lemma connect_assigns_what_returned_witness :
  connected fresh = false /\
  mongo (final (run store_down [] (connect fresh))) = Some 1 /\
  tasks (final (run store_down [] (connect fresh))) = None.
Proof.
  split; [reflexivity|].
  destruct (connect_assigns_what_returned store_down fresh eq_refl)
    as [Hm [_ [_ [Ht _]]]].
  split.
  - rewrite Hm. reflexivity.
  - rewrite Ht. reflexivity.
Defined.

(** What [start] and [process] need of a resolved [connect]. *)
Lemma connect_resolved_state (env : Env) (s : Server) :
  result (run env [] (connect s)) = Resolved tt ->
  connected (final (run env [] (connect s))) = true /\
  processing (final (run env [] (connect s))) = processing s /\
  config (final (run env [] (connect s))) = config s /\
  exists q, tasks (final (run env [] (connect s))) = Some q.
Proof.
  destruct (connected s) eqn:H.
  - rewrite (connect_guard s H). discriminate.
  - unfold connect. unfold_monad. rewrite H.
    exec env; intros R; try discriminate R.
    repeat split. eexists. reflexivity.
Qed.

(** One run of [process] on a server that has its queues: an error is the
    guard's or a collaborator's. *)
Lemma process_body (env : Env) (rt : Runtime) (s : Server) (q : Handle) :
  tasks s = Some q ->
  forall e,
    result (run env [] (process rt s)) = Raised e ->
    e = already_processing \/
    exists c, In (EvCall c (Threw e)) (events (run env [] (process rt s))).
Proof.
  intros Ht. unfold process. unfold_monad.
  exec env; intros x Hx; try discriminate Hx; injection Hx as <-;
    first [left; reflexivity | right; eexists; cbn; eauto 10].
Qed.

(** X4. After a resolved [connect], nothing that [process] or [start] reads
    from [this] is undefined: [start] raises only what a collaborator throws,
    and [process] only that or its own double-invocation error. *)
Theorem connected_server_raises_only_collaborator_errors
    (env env' : Env) (rt : Runtime) (o : ServerStartOptions) (s : Server) :
  result (run env [] (connect s)) = Resolved tt ->
  (forall e,
     result (run env' [] (start o (final (run env [] (connect s))))) = Raised e ->
     exists c,
       In (EvCall c (Threw e))
          (events (run env' [] (start o (final (run env [] (connect s))))))) /\
  (forall e,
     result (run env' [] (process rt (final (run env [] (connect s))))) = Raised e ->
     e = JSError "server has already processing" \/
     exists c,
       In (EvCall c (Threw e))
          (events (run env' [] (process rt (final (run env [] (connect s))))))).
Proof.
  intros R.
  destruct (connect_resolved_state env s R) as [Hc [_ [_ [q Hq]]]].
  split.
  - apply (start_body env' o _ q Hc Hq).
  - apply (process_body env' rt _ q Hq).
Qed.

Lemma connected_server_raises_only_collaborator_errors_witness :
  result (run healthy [] (connect fresh)) = Resolved tt /\
  (forall e,
     result (run store_down []
               (start (mkStartOptions None) (final (run healthy [] (connect fresh))))) =
       Raised e ->
     exists c,
       In (EvCall c (Threw e))
          (events (run store_down []
                     (start (mkStartOptions None)
                            (final (run healthy [] (connect fresh))))))).
Proof.
  split; [reflexivity|].
  apply (proj1 (connected_server_raises_only_collaborator_errors
                  healthy store_down master (mkStartOptions None) fresh eq_refl)).
Defined.

(** ** [process], further *)

(** X5. [process] writes no field of [this] but [processing]: whatever the
    collaborators answer and wherever the run ends, [this] afterwards is
    [this] before with [processing] set. *)
Theorem process_only_sets_processing (env : Env) (rt : Runtime) (s : Server) :
  final (run env [] (process rt s)) =
    if processing s then s else set_processing true s.
Proof.
  unfold process. unfold_monad. exec env; reflexivity.
Qed.

(** X6. [process] on a server whose queues were never created (no completed
    [connect]) launches no job processor and serves nothing: it raises,
    either the rejection of [ensureIndexes] or a [TypeError] on
    [this.tasks.mailer].  It has set [processing] all the same. *)
Theorem process_without_queues (env : Env) (rt : Runtime) (s : Server) :
  processing s = false ->
  tasks s = None ->
  existsb taskProcess_called (events (run env [] (process rt s))) = false /\
  existsb listen_called (events (run env [] (process rt s))) = false /\
  processing (final (run env [] (process rt s))) = true /\
  exists e,
    result (run env [] (process rt s)) = Raised e /\
    (e = TypeError "mailer" \/
     In (EvCall (EnsureIndexes (mongo s)) (Threw e))
        (events (run env [] (process rt s)))).
Proof.
  intros Hp Ht. unfold process. unfold_monad. rewrite Hp.
  exec env; repeat split; eexists; (split; [reflexivity|]); cbn; auto.
Qed.

Lemma process_without_queues_witness :
  processing fresh = false /\ tasks fresh = None /\
  existsb taskProcess_called (events (run healthy [] (process master fresh))) = false /\
  processing (final (run healthy [] (process master fresh))) = true.
Proof.
  split; [reflexivity|]. split; [reflexivity|].
  destruct (process_without_queues healthy master fresh eq_refl eq_refl)
    as [H1 [_ [H3 _]]].
  split; [exact H1 | exact H3].
Defined.

(** X7. Indexing is gated by [disable_mongodb_autoindexing]: when it is set
    [ensureIndexes] is never called; when it is not, [ensureIndexes] on
    [this.mongo] is the first call [process] makes, and if it rejects,
    [process] raises that error without launching a job processor. *)
Theorem process_indexing_gate (env : Env) (rt : Runtime) (s : Server) :
  processing s = false ->
  (disable_mongodb_autoindexing (config s) = true ->
   existsb ensureIndexes_called (events (run env [] (process rt s))) = false) /\
  (disable_mongodb_autoindexing (config s) = false ->
   hd_error (calls (events (run env [] (process rt s)))) =
     Some (EnsureIndexes (mongo s)) /\
   forall e,
     In (EvCall (EnsureIndexes (mongo s)) (Threw e))
        (events (run env [] (process rt s))) ->
     result (run env [] (process rt s)) = Raised e /\
     existsb taskProcess_called (events (run env [] (process rt s))) = false).
Proof.
  intros Hp. unfold process. unfold_monad. rewrite Hp. cbn.
  destruct (disable_mongodb_autoindexing (config s)) eqn:D; cbn.
  - split; [intros _ | discriminate].
    exec env; reflexivity.
  - split; [discriminate | intros _].
    exec env; (split; [reflexivity|]); intros x Hin; pick Hin;
      injection Hin as <-; split; reflexivity.
Qed.

Lemma process_indexing_gate_witness :
  processing ready = false /\
  disable_mongodb_autoindexing (config ready) = true /\
  existsb ensureIndexes_called (events (run healthy [] (process master ready))) = false.
Proof.
  split; [reflexivity|]. split; [reflexivity|].
  apply (proj1 (process_indexing_gate healthy master ready eq_refl)).
  reflexivity.
Defined.

(** ** [start], further *)

(** X8. When [start] resolves, [createApp] was given the references held by
    [this] (the caller's [parent] if there is one, else the server's own
    application), [listenAndServe] was given the application [createApp]
    returned and the configured [port], and [httpServer] is what
    [listenAndServe] returned, the only field written.  When [start] raises,
    [this] is as it was. *)
Theorem start_resolved (env : Env) (o : ServerStartOptions) (s : Server) :
  (result (run env [] (start o s)) = Resolved tt ->
   exists q signingConfig app srv,
     tasks s = Some q /\
     events (run env [] (start o s)) =
       [EvCall (CreateJWTSigningConfig ThisConfig) (Returned signingConfig);
        EvCall (CreateApp
                  (mkAppOptions
                     (match parent o with Some p => p | None => parentApp s end)
                     (mongo s) (redis s) signingConfig (tenantCache s) ThisConfig
                     (schema s) (i18n s) (Mailer q) (Scraper q)
                     (concurrency (config s) =? 1)%Z
                     (disable_client_routes (config s))))
               (Returned app);
        EvCall (ListenAndServe (RemoteApp app) (port (config s))) (Returned srv);
        EvLog "now listening"] /\
     final (run env [] (start o s)) = set_httpServer (Some srv) s) /\
  (forall e, result (run env [] (start o s)) = Raised e ->
             final (run env [] (start o s)) = s).
Proof.
  unfold start. unfold_monad.
  destruct (connected s) eqn:Hc; cbn.
  - destruct (parent o) as [p|] eqn:Hp; cbn;
      exec env;
      (split; [intros R; try discriminate R; repeat eexists
              | intros x R; try discriminate R; reflexivity]).
  - split; [discriminate | reflexivity].
Qed.

Lemma start_resolved_witness :
  result started = Resolved tt /\
  exists q signingConfig app srv,
    tasks ready = Some q /\
    events started =
      [EvCall (CreateJWTSigningConfig ThisConfig) (Returned signingConfig);
       EvCall (CreateApp
                 (mkAppOptions 101 (mongo ready) (redis ready) signingConfig
                               (tenantCache ready) ThisConfig
                               (schema ready) (i18n ready) (Mailer q) (Scraper q)
                               false false))
              (Returned app);
       EvCall (ListenAndServe (RemoteApp app) 3000) (Returned srv);
       EvLog "now listening"] /\
    final started = set_httpServer (Some srv) ready.
Proof.
  split; [reflexivity|].
  apply (proj1 (start_resolved healthy (mkStartOptions None) ready)).
  reflexivity.
Defined.

(** One run of [start] on a connected server that has no queues. *)
Lemma start_needs_queues (env : Env) (o : ServerStartOptions) (s : Server) :
  connected s = true ->
  tasks s = None ->
  existsb createApp_called (events (run env [] (start o s))) = false /\
  existsb listen_called (events (run env [] (start o s))) = false /\
  exists e,
    result (run env [] (start o s)) = Raised e /\
    (e = TypeError "mailer" \/
     In (EvCall (CreateJWTSigningConfig ThisConfig) (Threw e))
        (events (run env [] (start o s)))).
Proof.
  intros Hc Ht. unfold start. unfold_monad. rewrite Hc.
  exec env; repeat split; eexists; (split; [reflexivity|]); cbn; auto.
Qed.

(** [connect] assigns [tasks] only from a [createQueue] that returned. *)
Lemma connect_tasks (env : Env) (s : Server) :
  existsb createQueue_returned (events (run env [] (connect s))) = false ->
  connected (final (run env [] (connect s))) = true /\
  tasks (final (run env [] (connect s))) = tasks s.
Proof.
  destruct (connected s) eqn:H.
  - rewrite (connect_guard s H). intros _. split; [exact H | reflexivity].
  - unfold connect. unfold_monad. rewrite H.
    exec env; intros R; try discriminate R; split; reflexivity.
Qed.

(** X9. A server whose [connect] did not get as far as a returned
    [createQueue] (for instance because priming failed) never serves:
    [start] on it gets past the guard but raises before [createApp], on
    reading [this.tasks.mailer] if not earlier, and [listenAndServe] is
    never called. *)
Theorem start_after_failed_connect_never_serves
    (env env' : Env) (o : ServerStartOptions) (s : Server) :
  tasks s = None ->
  existsb createQueue_returned (events (run env [] (connect s))) = false ->
  existsb createApp_called
          (events (run env' [] (start o (final (run env [] (connect s)))))) = false /\
  existsb listen_called
          (events (run env' [] (start o (final (run env [] (connect s)))))) = false /\
  exists e,
    result (run env' [] (start o (final (run env [] (connect s))))) = Raised e /\
    (e = TypeError "mailer" \/
     In (EvCall (CreateJWTSigningConfig ThisConfig) (Threw e))
        (events (run env' [] (start o (final (run env [] (connect s))))))).
Proof.
  intros Ht Hq.
  destruct (connect_tasks env s Hq) as [Hc Ht1]. rewrite Ht in Ht1.
  apply (start_needs_queues env' o _ Hc Ht1).
Qed.

Lemma start_after_failed_connect_never_serves_witness :
  tasks fresh = None /\
  existsb createQueue_returned (events (run store_down [] (connect fresh))) = false /\
  result (run healthy []
            (start (mkStartOptions None) (final (run store_down [] (connect fresh))))) =
    Raised (TypeError "mailer") /\
  existsb listen_called
          (events (run healthy []
                     (start (mkStartOptions None)
                            (final (run store_down [] (connect fresh)))))) = false.
Proof.
  split; [reflexivity|]. split; [reflexivity|]. split; [reflexivity|].
  apply (proj1 (proj2 (start_after_failed_connect_never_serves
                         store_down healthy (mkStartOptions None) fresh
                         eq_refl eq_refl))).
Defined.

(** ** Across the methods *)

(** [process] serves only above a concurrency of 1. *)
Lemma process_listen_needs_concurrency (env : Env) (rt : Runtime) (s : Server) :
  existsb listen_called (events (run env [] (process rt s))) = true ->
  (concurrency (config s) >? 1)%Z = true.
Proof.
  unfold process. unfold_monad.
  exec env; intros R; try discriminate R;
    match goal with
    | L : _ && _ = true |- _ => apply andb_true_iff in L; apply L
    end.
Qed.

(** X10. Metrics are served in one place only.  [start] asks [createApp]
    for the application's own metrics exactly when [concurrency] is 1, and
    under that configuration [process] never starts the cluster metrics
    server. *)
Theorem metrics_in_one_place
    (env env' : Env) (rt : Runtime) (o : ServerStartOptions) (s s' : Server)
    (opts : AppOptions) (r : Reply) :
  config s' = config s ->
  In (EvCall (CreateApp opts) r) (events (run env [] (start o s))) ->
  (opt_metrics opts = true <-> concurrency (config s) = 1%Z) /\
  (opt_metrics opts = true ->
   existsb listen_called (events (run env' [] (process rt s'))) = false).
Proof.
  intros Hcfg Hin.
  assert (Hm : opt_metrics opts = (concurrency (config s) =? 1)%Z).
  { revert Hin. unfold start. unfold_monad.
    exec env; intros Hin; pick Hin; injection Hin as <- _; reflexivity. }
  split.
  - rewrite Hm. apply Z.eqb_eq.
  - intros Ht. rewrite Hm in Ht. apply Z.eqb_eq in Ht.
    destruct (existsb listen_called (events (run env' [] (process rt s')))) eqn:L;
      [|reflexivity].
    apply process_listen_needs_concurrency in L.
    rewrite Hcfg, Ht in L. discriminate L.
Qed.

Lemma metrics_in_one_place_witness :
  In (EvCall (CreateApp (mkAppOptions 101 (Some 1) (Some 2) 0 (Some 4) ThisConfig
                                      102 103 (Mailer 6) (Scraper 6) true false))
             (Returned 1))
     (events (run healthy []
                (start (mkStartOptions None) (final (run healthy [] (connect fresh)))))) /\
  existsb listen_called
          (events (run healthy []
                     (process master (final (run healthy [] (connect fresh)))))) = false.
Proof.
  assert (H : In (EvCall (CreateApp (mkAppOptions 101 (Some 1) (Some 2) 0 (Some 4)
                                                  ThisConfig 102 103 (Mailer 6)
                                                  (Scraper 6) true false))
                         (Returned 1))
                 (events (run healthy []
                            (start (mkStartOptions None)
                                   (final (run healthy [] (connect fresh))))))).
  { cbn. right. left. reflexivity. }
  split; [exact H|].
  apply (proj2 (metrics_in_one_place healthy healthy master (mkStartOptions None)
                                     _ _ _ _ eq_refl H)).
  reflexivity.
Defined.

(** X11. Neither method announces a listener it does not have: "now
    listening" is logged by [start] exactly when [start] resolves, and "now
    listening for cluster metrics" by [process] exactly when [listenAndServe]
    returned. *)
Theorem listening_logged_iff_bound
    (env : Env) (rt : Runtime) (o : ServerStartOptions) (s : Server) :
  (existsb (logged "now listening") (events (run env [] (start o s))) = true <->
   result (run env [] (start o s)) = Resolved tt) /\
  (existsb (logged "now listening for cluster metrics")
           (events (run env [] (process rt s))) = true <->
   existsb listen_returned (events (run env [] (process rt s))) = true).
Proof.
  split.
  - unfold start. unfold_monad.
    exec env; split; intros R; try discriminate R; reflexivity.
  - unfold process. unfold_monad.
    exec env; split; intros R; try discriminate R; reflexivity.
Qed.

Lemma again_result {A : Type} (env : Env) (m : M A) (r : Outcome A * Server * Trace) :
  result (again env m r) = result (run (shift env (events r)) [] (m (final r))).
Proof. unfold again. rewrite run_shift. reflexivity. Qed.

Lemma again_final {A : Type} (env : Env) (m : M A) (r : Outcome A * Server * Trace) :
  final (again env m r) = final (run (shift env (events r)) [] (m (final r))).
Proof. unfold again. rewrite run_shift. reflexivity. Qed.

(** With reliable collaborators each method resolves as soon as its guard
    lets it in and the references it reads are there. *)
Lemma connect_resolves (env : Env) (s : Server) :
  reliable env -> connected s = false ->
  result (run env [] (connect s)) = Resolved tt.
Proof.
  intros R H. unfold connect. unfold_monad. rewrite H.
  exec env; try unreliable; reflexivity.
Qed.

Lemma process_resolves (env : Env) (rt : Runtime) (s : Server) (q : Handle) :
  reliable env -> processing s = false -> tasks s = Some q ->
  result (run env [] (process rt s)) = Resolved tt /\
  processing (final (run env [] (process rt s))) = true /\
  connected (final (run env [] (process rt s))) = connected s /\
  tasks (final (run env [] (process rt s))) = Some q.
Proof.
  intros R H Ht. unfold process. unfold_monad. rewrite H.
  exec env; try unreliable; repeat split; assumption.
Qed.

Lemma start_resolves (env : Env) (o : ServerStartOptions) (s : Server) (q : Handle) :
  reliable env -> connected s = true -> tasks s = Some q ->
  result (run env [] (start o s)) = Resolved tt /\
  processing (final (run env [] (start o s))) = processing s /\
  exists srv, httpServer (final (run env [] (start o s))) = Some srv.
Proof.
  intros R H Ht. unfold start. unfold_monad. rewrite H.
  exec env; try unreliable; repeat split; eexists; reflexivity.
Qed.

(** X12. The bootstrap sequence goes through whenever no collaborator
    throws: on a newly constructed server [connect] resolves, then [process]
    resolves, then [start] resolves, leaving both flags set and an HTTP
    server bound; and [start] resolves just as well straight after
    [connect], without [process]. *)
Theorem bootstrap_resolves
    (env : Env) (rt : Runtime) (o : ServerStartOptions)
    (app sch i : Handle) (cfg : Config) :
  reliable env ->
  result (run env [] (connect (new_Server app sch i cfg))) = Resolved tt /\
  result (again env (process rt)
                (run env [] (connect (new_Server app sch i cfg)))) = Resolved tt /\
  result (again env (start o)
                (again env (process rt)
                       (run env [] (connect (new_Server app sch i cfg))))) =
    Resolved tt /\
  connected (final (again env (start o)
                          (again env (process rt)
                                 (run env [] (connect (new_Server app sch i cfg)))))) =
    true /\
  processing (final (again env (start o)
                           (again env (process rt)
                                  (run env [] (connect (new_Server app sch i cfg)))))) =
    true /\
  httpServer (final (again env (start o)
                           (again env (process rt)
                                  (run env [] (connect (new_Server app sch i cfg)))))) <>
    None /\
  result (again env (start o)
                (run env [] (connect (new_Server app sch i cfg)))) = Resolved tt.
Proof.
  intros R.
  set (s0 := new_Server app sch i cfg).
  assert (H1 : result (run env [] (connect s0)) = Resolved tt)
    by (apply connect_resolves; [exact R | reflexivity]).
  destruct (connect_resolved_state env s0 H1) as [Hc [Hp [_ [q Hq]]]].
  set (r1 := run env [] (connect s0)) in *.
  destruct (process_resolves (shift env (events r1)) rt (final r1) q
              (shift_reliable env _ R) Hp Hq) as [H2 [Hp2 [Hc2 Hq2]]].
  rewrite <- (again_result env (process rt) r1) in H2.
  rewrite <- (again_final env (process rt) r1) in Hp2, Hc2, Hq2.
  set (r2 := again env (process rt) r1) in *.
  rewrite Hc in Hc2.
  destruct (start_resolves (shift env (events r2)) o (final r2) q
              (shift_reliable env _ R) Hc2 Hq2) as [H3 [Hp3 [srv Hs3]]].
  destruct (connected_untouched rt o (final r2) true Hc2) as [_ Hc3].
  apply (always_final _ (shift env (events r2)) _ []) in Hc3.
  rewrite <- (again_result env (start o) r2) in H3.
  rewrite <- (again_final env (start o) r2) in Hp3, Hs3, Hc3.
  split; [exact H1|]. split; [exact H2|]. split; [exact H3|].
  split; [exact Hc3|]. split; [rewrite Hp3; exact Hp2|].
  split; [rewrite Hs3; discriminate|].
  rewrite again_result.
  apply (start_resolves (shift env (events r1)) o (final r1) q
           (shift_reliable env _ R) Hc Hq).
Qed.

Lemma bootstrap_resolves_witness :
  result (again healthy (start (mkStartOptions None))
                (again healthy (process master)
                       (run healthy [] (connect (new_Server 101 102 103 clustered))))) =
    Resolved tt.
Proof.
  apply (proj1 (proj2 (proj2 (bootstrap_resolves healthy master (mkStartOptions None)
                                                 101 102 103 clustered
                                                 healthy_returns)))).
Defined.

(** Once its flag is set, invoking a guarded method again changes neither
    [this] nor the trace. *)
Lemma invoke_n_guarded {A : Type} (env : Env) (m : M A) (e : Error)
    (flag : Server -> bool) :
  (forall s, flag s = true -> m s = Fail s e) ->
  forall n s tr, flag s = true -> invoke_n env m n s tr = (s, tr).
Proof.
  intros Hg. induction n as [|k IH]; intros s tr Hf; simpl.
  - reflexivity.
  - rewrite (Hg s Hf). simpl. apply IH, Hf.
Qed.

Lemma process_launches_once (env : Env) (rt : Runtime) (s : Server) :
  count mailer_launched (events (run env [] (process rt s))) <= 1 /\
  count scraper_launched (events (run env [] (process rt s))) <= 1 /\
  count listen_called (events (run env [] (process rt s))) <= 1.
Proof.
  unfold process. unfold_monad.
  exec env; cbn; repeat split; lia.
Qed.

Lemma connect_calls_once (env : Env) (s : Server) :
  count primeAll_returned (events (run env [] (connect s))) <= 1 /\
  count createQueue_called (events (run env [] (connect s))) <= 1.
Proof.
  unfold connect. unfold_monad.
  exec env; cbn; repeat split; lia.
Qed.

(** X13. However many times [process] is invoked on a server, one
    invocation after the other, each job processor is launched at most once
    and the cluster metrics server is started at most once; likewise
    repeated [connect]s prime the cache and create the queues at most
    once. *)
Theorem repeated_invocations_act_once
    (env : Env) (rt : Runtime) (n : nat) (s : Server) :
  count mailer_launched (snd (invoke_n env (process rt) n s [])) <= 1 /\
  count scraper_launched (snd (invoke_n env (process rt) n s [])) <= 1 /\
  count listen_called (snd (invoke_n env (process rt) n s [])) <= 1 /\
  count primeAll_returned (snd (invoke_n env connect n s [])) <= 1 /\
  count createQueue_called (snd (invoke_n env connect n s [])) <= 1.
Proof.
  destruct n as [|k].
  - simpl. unfold count. simpl. repeat split; lia.
  - simpl.
    rewrite (invoke_n_guarded env (process rt) already_processing processing
               (process_guard rt) k).
    + rewrite (invoke_n_guarded env connect already_connected connected
                 connect_guard k).
      * simpl.
        destruct (process_launches_once env rt s) as [H1 [H2 H3]].
        destruct (connect_calls_once env s) as [H4 H5].
        repeat split; assumption.
      * apply (always_final (fun s' => connected s' = true)),
          connect_sets_connected.
    + apply (always_final (fun s' => processing s' = true)),
        process_sets_processing.
Qed.
